(** * go-4devs/workflow: transition registry and middleware composition

    A shallow embedding of [workflow.go].  Go functions that run user code
    (middleware, the apply function) are functions in a small monad [M] that
    threads the state of the outside world and can panic; the registry
    ([*Workflow] and the [*Transition] structs it points to) is passed
    explicitly, with the [*Transition] pointers kept as locations of a heap so
    that the in-place update done by [Add] is visible. *)

From Stdlib Require Import FunctionalExtensionality.
From stdpp Require Import base option list gmap strings.
From Equations Require Import Equations.

Set Default Proof Using "Type*".

(** ** Outcomes: a Go call returns a value or panics *)

Inductive outcome (A : Type) : Type :=
  | Val (a : A)
  | Panic.
Arguments Val {A} a.
Arguments Panic {A}.

(** [errors.New] values of the package, and the errors of user code. *)
Inductive err (UErr : Type) : Type :=
  | ErrTransitNotAllowed
  | ErrDuplicateTransit
  | ErrUser (e : UErr).
Arguments ErrTransitNotAllowed {UErr}.
Arguments ErrDuplicateTransit {UErr}.
Arguments ErrUser {UErr} e.

(** ** The effect monad: the state [St] of the world outside, and panics *)

Definition M (St A : Type) : Type := St -> outcome A * St.

Definition ret {St A} (a : A) : M St A := fun s => (Val a, s).
Definition panic {St A} : M St A := fun s => (Panic, s).
Definition bind {St A B} (c : M St A) (k : A -> M St B) : M St B :=
  fun s => match c s with
           | (Val a, s') => k a s'
           | (Panic, s') => (Panic, s')
           end.

Notation "'let*' x := c 'in' k" := (bind c (fun x => k))
  (at level 10, x name, c at level 100, k at level 200,
   format "'[v' 'let*'  x  :=  c  'in' '/' k ']'").

(** [Data] is an interface with one method; [D] is the type of its non-nil
    values and [Stringer] the type of [fmt.Stringer] interface values (nil
    included), compared with Go's [==]. *)
Class HasState (D Stringer : Type) := GetState : D -> Stringer.

(** [*Transition]: nil or the location of a struct. *)
Definition loc := positive.
Definition ptr := option loc.

Section Workflow.
Context {Ctx St D UErr Stringer : Type}.
Context `{!EqDecision Stringer, !Countable Stringer, !HasState D Stringer}.

(** *** Types of the package *)

(** An interface value of type [Data]: nil, or a value with [GetState]. *)
Definition Data : Type := option D.
Definition error : Type := option (err UErr).
Definition Result : Type := Data * error.

(** [type Process func(ctx, data) (Data, error)] *)
Definition Process : Type := Ctx -> Data -> M St Result.

(** [type Middleware func(ctx, data, next Process) (Data, error)]; a func
    value may be nil ([Add] tests for it), and calling nil panics. *)
Definition MiddlewareFn : Type := Ctx -> Data -> Process -> M St Result.
Definition Middleware : Type := option MiddlewareFn.

Definition call (m : Middleware) : MiddlewareFn :=
  match m with
  | Some f => f
  | None => fun _ _ _ => panic
  end.

(** [type Apply func(ctx, data, dst fmt.Stringer) (Data, error)] *)
Definition Apply : Type := Ctx -> Data -> Stringer -> M St Result.

Record Transition : Type := mkTransition {
  tr_Src : list Stringer;
  tr_Dst : Stringer;
  tr_Middleware : Middleware;
}.

Record Workflow : Type := mkWorkflow {
  w_transitions : gmap Stringer ptr;
  w_apply : Apply;
  w_mw : Middleware;
}.

(** The [Transition] structs that pointers refer to. *)
Local Abbreviation heap := (gmap loc Transition).

Definition deref (h : heap) (p : ptr) : option Transition :=
  match p with
  | Some l => h !! l
  | None => None
  end.

(** Reading a field through a pointer; nil panics. *)
Definition load (h : heap) (p : ptr) : M St Transition :=
  match deref h p with
  | Some t => ret t
  | None => panic
  end.

(** *** [Transition.Can] *)

(** [data.GetState()]: a method call on a nil interface value panics. *)
Definition getState (data : Data) : M St Stringer :=
  match data with
  | Some d => ret (GetState d)
  | None => panic
  end.

(** [for _, src := range tr.Src { if data.GetState() == src { return true } }
    return false] *)
Fixpoint rangeSrc (srcs : list Stringer) (data : Data) : M St bool :=
  match srcs with
  | [] => ret false
  | src :: rest =>
      let* st := getState data in
      if decide (st = src) then ret true else rangeSrc rest data
  end.

Definition Transition_Can (tr : Transition) (data : Data) : M St bool :=
  if decide (length (tr_Src tr) = 0) then ret true
  else rangeSrc (tr_Src tr) data.

(** *** [chainProcess] *)

Section chainHandler.
Variables (handleFunc : list Middleware) (next : Process) (data : Data).

Let lastI : nat := length handleFunc - 1.

(** The closure [chainHandler] of the composed function, as a function of
    the value [curI] that the cursor holds when the closure is called:
    [chainHandler curI c d] is what the call [chainHandler(c, d)] does when
    the variable [curI] of the code is [curI].  At [curI = lastI] the closure
    calls [next] with [data], the argument of the composed function, not with
    its own argument [currentData].  Otherwise it increments the cursor,
    calls [handleFunc[curI]] (indexing out of range panics) and decrements
    the cursor when that call has returned.

    The continuation handed to [handleFunc[curI + 1]] is taken to be the
    closure at [curI + 1]: that is the value the cursor has whenever
    [handleFunc[curI + 1]] calls it, as long as every earlier call of the
    closure has returned, because each call that returns leaves the cursor
    as it found it.  A call that panics leaves the cursor incremented (the
    decrement is not deferred), so after a panic the closure of the code is
    at a later link than this function says.  Statements that follow the
    continuation through a whole chain therefore speak of chains in which
    no call panics ([no_panic], [no_panic_mw]), of middleware that cannot
    see a panic of their continuation, or of a single call of the
    closure. *)
Equations? chainHandler (curI : nat) : Process by wf (lastI - curI) lt :=
  chainHandler curI := fun currentCtx currentData =>
    if decide (curI = lastI) then next currentCtx data
    else
      if decide (curI + 1 < length handleFunc)
      then call (handleFunc !!! (curI + 1)) currentCtx currentData
                (chainHandler (curI + 1))
      else panic.
Proof. subst lastI. lia. Defined.
End chainHandler.

Definition chainProcess (handleFunc : list Middleware) : Middleware :=
  let n := length handleFunc in
  if decide (1 < n) then
    Some (fun ctx data next =>
            call (handleFunc !!! 0) ctx data (chainHandler handleFunc next data 0))
  else if decide (n = 1) then handleFunc !!! 0
  else Some (fun ctx data next => next ctx data).

(** The same links as nested continuations: [chainFrom rest next data] is the
    continuation that runs the middleware of [rest] in order and then [next]
    on [data].  [chainHandler_chainFrom] below relates the cursor of the code
    to it. *)
Fixpoint chainFrom (rest : list Middleware) (next : Process) (data : Data)
    : Process :=
  match rest with
  | [] => fun currentCtx _ => next currentCtx data
  | h :: rest' => fun currentCtx currentData =>
      call h currentCtx currentData (chainFrom rest' next data)
  end.

(** *** The registry *)

(** [NewWorkflow]; [mw] is the list of middleware written as separate
    arguments (see [Workflow_Add] below). *)
Definition NewWorkflow (apply : Apply) (mw : list Middleware) : Workflow :=
  {| w_apply := apply;
     w_mw := chainProcess mw;
     w_transitions := ∅ |}.

(** [Get]: [tr, ok := w.transitions[transit]; if !ok || !tr.Can(data)
    { return nil }; return tr]. *)
Definition Workflow_Get (h : heap) (w : Workflow) (data : Data)
    (transit : Stringer) : M St ptr :=
  match w_transitions w !! transit with
  | None => ret None
  | Some tr =>
      let* t := load h tr in
      let* can := Transition_Can t data in
      if can then ret tr else ret None
  end.

(** [Add] updates the struct behind [transit] and the map of the workflow;
    both are returned.  The mutex only serialises concurrent calls.

    [mw] is the list of the extra middleware written as separate arguments
    of the call: Go builds the slice of such a call itself, with no spare
    capacity, so [append] copies it and the stored chain is the only reader
    of the copy.  A call that spreads a slice of the caller ([s...]) hands
    [Add] the caller's backing array, which [append] may write into and which
    the stored chain reads when it runs; what the caller or a later [Add]
    then does to that array is not followed here. *)
Definition Workflow_Add (h : heap) (w : Workflow) (name : Stringer)
    (transit : ptr) (mw : list Middleware)
    : outcome (heap * Workflow * error) :=
  if decide (is_Some (w_transitions w !! name)) then
    Val (h, w, Some ErrDuplicateTransit)
  else
    match transit with
    | None => Panic
    | Some l =>
        match h !! l with
        | None => Panic
        | Some t =>
            let mw := match tr_Middleware t with
                      | Some _ => mw ++ [tr_Middleware t]
                      | None => mw
                      end in
            let t' := {| tr_Src := tr_Src t; tr_Dst := tr_Dst t;
                         tr_Middleware := chainProcess mw |} in
            Val (<[l := t']> h,
                 {| w_transitions := <[name := transit]> (w_transitions w);
                    w_apply := w_apply w;
                    w_mw := w_mw w |},
                 None)
        end
    end.

Definition Workflow_Can (h : heap) (w : Workflow) (data : Data)
    (transit : Stringer) : M St bool :=
  let* tr := Workflow_Get h w data transit in
  ret (bool_decide (tr <> None)).

Definition Workflow_Apply (h : heap) (w : Workflow) (ctx : Ctx) (data : Data)
    (transit : Stringer) : M St Result :=
  call (w_mw w) ctx data (fun ctx data =>
    let* tr := Workflow_Get h w data transit in
    if decide (tr <> None) then
      let* t := load h tr in
      call (tr_Middleware t) ctx data (fun ctx data =>
        let* t := load h tr in
        w_apply w ctx data (tr_Dst t))
    else ret (None, Some ErrTransitNotAllowed)).

(** Every registered name points to a struct whose [Middleware] is a
    function, not nil. *)
Definition registry_ok (h : heap) (w : Workflow) : Prop :=
  forall name p, w_transitions w !! name = Some p ->
    exists t f, deref h p = Some t /\ tr_Middleware t = Some f.

(** A process that returns on every input, and a middleware that returns on
    every input as long as its continuation does.  In a chain of such
    middleware around such a terminal function nothing ever panics. *)
Definition no_panic (p : Process) : Prop :=
  forall c d s, fst (p c d s) <> Panic.

Definition no_panic_mw (m : Middleware) : Prop :=
  forall k, no_panic k -> forall c d s, fst (call m c d k s) <> Panic.

End Workflow.

(** ** The fixtures of the package's tests *)

Module Tests.

(** [testState] and [testTransit] are distinct string types behind
    [fmt.Stringer]; [nilStringer] is the nil interface value. *)
Inductive stringer : Type :=
  | nilStringer
  | testState (s : string)
  | testTransit (s : string).

#[global] Instance stringer_eq_dec : EqDecision stringer.
Proof. solve_decision. Defined.

#[global] Instance stringer_countable : Countable stringer.
Proof.
  refine (inj_countable'
    (fun x => match x with
              | nilStringer => inl ()
              | testState s => inr (inl s)
              | testTransit s => inr (inr s)
              end)
    (fun y => match y with
              | inl _ => nilStringer
              | inr (inl s) => testState s
              | inr (inr s) => testTransit s
              end) _).
  intros []; reflexivity.
Defined.

Definition toNew : stringer := testTransit "to new".
Definition toDone : stringer := testTransit "to done".
Definition toCancel : stringer := testTransit "to cancel".

Definition newState : stringer := testState "new".
Definition doneState : stringer := testState "done".
Definition cancelState : stringer := testState "cancel".

Record testData : Type := mkTestData { state : stringer }.

#[global] Instance testData_HasState : HasState testData stringer := state.

(** The world of the tests is the slice [ex] of the [testMWFactory]. *)
Definition world : Type := list string.

Definition TData : Type := @Data testData.
Definition TProcess : Type := @Process unit world testData string.
Definition TMiddleware : Type := @Middleware unit world testData string.
Definition TApply : Type := @Apply unit world testData string stringer.
Definition TTransition : Type := @Transition unit world testData string stringer.
Definition TWorkflow : Type := @Workflow unit world testData string stringer _ _.
Abbreviation THeap := (gmap loc TTransition).
Definition TError : Type := @error string.
Definition TResult : Type := @Result testData string.

(** [testMWFactory.Success]: appends [name] to [ex], then calls [next]. *)
Definition Success (name : string) : TMiddleware :=
  Some (fun ctx data next ex => next ctx data (ex ++ [name])).

(** The apply function of the tests: [d := data.(testData); d.state = dst;
    return d, nil].  The type assertion panics on nil. *)
Definition setState : TApply :=
  fun ctx data dst =>
    match data with
    | Some d => ret (Some {| state := dst |}, None)
    | None => panic
    end.

(** The apply function of [TestWorkflow_Add] and [TestWorkflow_Can]. *)
Definition keepData : TApply := fun ctx data dst => ret (data, None).

(** The [&Transition{...}] literals of [TestWorkflow_Apply_Middleware], at
    three locations of the heap. *)
Definition scenarioHeap : THeap :=
  <[3%positive := {| tr_Src := [newState; doneState]; tr_Dst := cancelState;
                     tr_Middleware := Success "cancel" |}]>
  (<[2%positive := {| tr_Src := [newState]; tr_Dst := doneState;
                      tr_Middleware := Success "done" |}]>
  (<[1%positive := {| tr_Src := []; tr_Dst := newState;
                      tr_Middleware := None |}]> ∅)).

(** [require.Nil(t, w.Add(...))]: the registry after a successful [Add]. *)
Definition requireAdd (r : outcome (THeap * TWorkflow * TError))
    : option (THeap * TWorkflow) :=
  match r with
  | Val (h, w, None) => Some (h, w)
  | _ => None
  end.

(** The three registrations of [TestWorkflow_Apply_Middleware]. *)
Definition scenarioRegistry : option (THeap * TWorkflow) :=
  '(h, w) ← requireAdd
     (Workflow_Add scenarioHeap (NewWorkflow setState []) toNew (Some 1%positive)
        [Success "new"]);
  '(h, w) ← requireAdd (Workflow_Add h w toDone (Some 2%positive) []);
  requireAdd
    (Workflow_Add h w toCancel (Some 3%positive)
       [Success "cancel add 1"; Success "cancel add 2"; Success "cancel add 3"]).

(** One [w.Apply] of the test followed by [require.Nil(t, err)]: the data
    returned and the slice [ex] after the call. *)
Definition requireApply (h : THeap) (w : TWorkflow) (data : TData)
    (transit : stringer) (ex : world) : option (TData * world) :=
  match Workflow_Apply h w () data transit ex with
  | (Val (data', None), ex') => Some (data', ex')
  | _ => None
  end.

(** [TestWorkflow_Apply_Middleware]: the slice [ex] after each of the three
    calls, and the state of the last result. *)
Definition TestWorkflow_Apply_Middleware
    : option (world * world * world * option stringer) :=
  '(h, w) ← scenarioRegistry;
  '(exNew, ex1) ← requireApply h w (Some {| state := nilStringer |}) toNew [];
  '(exDone, ex2) ← requireApply h w exNew toDone ex1;
  '(exCancel, ex3) ← requireApply h w exDone toCancel ex2;
  Some (ex1, ex2, ex3, GetState <$> exCancel).

(** [TestWorkflow_Apply]: the outcome of [Apply] for [toDone] on a fresh
    entity, and the states after [toNew] and then [toDone]. *)
Definition TestWorkflow_Apply
    : option (outcome TResult * option stringer * option stringer) :=
  let h0 : THeap :=
    <[2%positive := {| tr_Src := [newState]; tr_Dst := doneState;
                       tr_Middleware := None |}]>
    (<[1%positive := {| tr_Src := []; tr_Dst := newState;
                        tr_Middleware := None |}]> ∅) in
  let data : TData := Some {| state := nilStringer |} in
  '(h, w) ← requireAdd
     (Workflow_Add h0 (NewWorkflow setState []) toNew (Some 1%positive) []);
  '(h, w) ← requireAdd (Workflow_Add h w toDone (Some 2%positive) []);
  '(exNew, _) ← requireApply h w data toNew [];
  '(exDone, _) ← requireApply h w exNew toDone [];
  Some (fst (Workflow_Apply h w () data toDone []),
        GetState <$> exNew, GetState <$> exDone).

(** [TestWorkflow_Can]: [Can] for [toNew], [toCancel] and [toDone] on a fresh
    entity. *)
Definition TestWorkflow_Can : option (outcome bool * outcome bool * outcome bool) :=
  let h0 : THeap :=
    <[2%positive := {| tr_Src := [newState]; tr_Dst := cancelState;
                       tr_Middleware := None |}]>
    (<[1%positive := {| tr_Src := []; tr_Dst := newState;
                        tr_Middleware := None |}]> ∅) in
  let data : TData := Some {| state := nilStringer |} in
  '(h, w) ← requireAdd
     (Workflow_Add h0 (NewWorkflow keepData []) toNew (Some 1%positive) []);
  '(h, w) ← requireAdd (Workflow_Add h w toCancel (Some 2%positive) []);
  Some (fst (Workflow_Can h w data toNew []),
        fst (Workflow_Can h w data toCancel []),
        fst (Workflow_Can h w data toDone [])).

(** Middleware and terminal functions used to probe the chain. *)

(** Calls its continuation with the data it was given. *)
Definition passThrough : TMiddleware :=
  Some (fun ctx data next => next ctx data).

(** Calls its continuation with a new Data value, in state [st]. *)
Definition withState (st : stringer) : TMiddleware :=
  Some (fun ctx data next => next ctx (Some {| state := st |})).

(** Returns an error without calling its continuation. *)
Definition deny : TMiddleware :=
  Some (fun ctx data next => ret (data, Some (ErrUser "denied"))).

(** Calls its continuation and drops the error it returns. *)
Definition swallow : TMiddleware :=
  Some (fun ctx data next => let* r := next ctx data in ret (fst r, None)).

(** Returns an error without calling its continuation when the data is nil,
    and calls its continuation otherwise. *)
Definition requireData : TMiddleware :=
  Some (fun ctx data next =>
          match data with
          | None => ret (None, Some (ErrUser "no data"))
          | Some _ => next ctx data
          end).

(** A terminal function that returns the data it receives. *)
Definition echo : TProcess := fun ctx data => ret (data, None).

(** An entity in state ["new"]. *)
Definition newData : TData := Some {| state := newState |}.

(** What [deny] returns, as a function of the context and data it is given. *)
Definition denied : TProcess :=
  fun ctx data => ret (data, Some (ErrUser "denied")).

(** [TestWorkflow_Add]: the two [&Transition{...}] literals, the apply
    function, and the first registration. *)
Definition addHeap : THeap :=
  <[2%positive := {| tr_Src := []; tr_Dst := doneState; tr_Middleware := None |}]>
  (<[1%positive := {| tr_Src := []; tr_Dst := newState; tr_Middleware := None |}]>
   ∅).

Definition addFirst : outcome (THeap * TWorkflow * TError) :=
  Workflow_Add addHeap (NewWorkflow keepData []) toNew (Some 1%positive) [].

(** The second struct of [scenarioHeap], and a workflow without global
    middleware in which [toDone] is registered with it. *)
Definition guardedTransition : TTransition :=
  {| tr_Src := [newState]; tr_Dst := doneState; tr_Middleware := Success "done" |}.

Definition guardedWorkflow : TWorkflow :=
  {| w_transitions := <[toDone := Some 2%positive]> ∅;
     w_apply := setState;
     w_mw := chainProcess [] |}.

(** A transition whose middleware is [deny], and a workflow in which [toNew]
    is registered with it. *)
Definition denyTransition : TTransition :=
  {| tr_Src := []; tr_Dst := newState; tr_Middleware := deny |}.

Definition denyHeap : THeap := <[1%positive := denyTransition]> ∅.

Definition denyWorkflow : TWorkflow :=
  {| w_transitions := <[toNew := Some 1%positive]> ∅;
     w_apply := setState;
     w_mw := chainProcess [] |}.

(** The first struct of [addHeap]. *)
Definition plainTransition : TTransition :=
  {| tr_Src := []; tr_Dst := newState; tr_Middleware := None |}.

End Tests.

(** ** Facts *)

Section WorkflowFacts.
Context {Ctx St D UErr Stringer : Type}.
Context `{!EqDecision Stringer, !Countable Stringer, !HasState D Stringer}.

Local Abbreviation Data := (@Data D).
Local Abbreviation error := (@error UErr).
Local Abbreviation Result := (@Result D UErr).
Local Abbreviation Process := (@Process Ctx St D UErr).
Local Abbreviation Middleware := (@Middleware Ctx St D UErr).
Local Abbreviation Apply := (@Apply Ctx St D UErr Stringer).
Local Abbreviation Transition := (@Transition Ctx St D UErr Stringer).
Local Abbreviation Workflow := (@Workflow Ctx St D UErr Stringer _ _).
Local Abbreviation heap := (gmap loc Transition).

(** *** The cursor of [chainProcess] and the nest of continuations *)

Lemma chainHandler_last (hs : list Middleware) (next : Process) (data : Data)
    (curI : nat) :
  curI = length hs - 1 ->
  chainHandler hs next data curI = fun currentCtx _ => next currentCtx data.
Proof.
  intros Hlast. rewrite chainHandler_equation_1.
  destruct (decide (curI = length hs - 1)); [reflexivity | contradiction].
Qed.

Lemma chainHandler_step (hs : list Middleware) (next : Process) (data : Data)
    (curI : nat) (h : Middleware) :
  hs !! (curI + 1) = Some h ->
  chainHandler hs next data curI =
  fun currentCtx currentData =>
    call h currentCtx currentData (chainHandler hs next data (curI + 1)).
Proof.
  intros Hh. pose proof (lookup_lt_Some _ _ _ Hh) as Hlt.
  rewrite chainHandler_equation_1.
  rewrite (list_lookup_total_correct _ _ _ Hh).
  destruct (decide (curI = length hs - 1)); [lia|].
  destruct (decide (curI + 1 < length hs)); [reflexivity | lia].
Qed.

Lemma chainHandler_chainFrom (hs : list Middleware) (next : Process)
    (data : Data) (curI : nat) :
  curI < length hs ->
  chainHandler hs next data curI = chainFrom (drop (S curI) hs) next data.
Proof.
  intros Hlt. remember (length hs - S curI) as k eqn:Hk.
  revert curI Hlt Hk. induction k as [|k IH]; intros curI Hlt Hk.
  - rewrite chainHandler_last by lia. rewrite drop_ge by lia. reflexivity.
  - destruct (lookup_lt_is_Some_2 hs (curI + 1)) as [h Hh]; [lia|].
    rewrite (chainHandler_step _ _ _ _ _ Hh), IH by lia.
    replace (curI + 1) with (S curI) in * by lia.
    rewrite (drop_S _ _ _ Hh). reflexivity.
Qed.

Lemma chainProcess_cons_cons (m0 m1 : Middleware) (rest : list Middleware) :
  chainProcess (m0 :: m1 :: rest) =
  Some (fun ctx data next => call m0 ctx data (chainFrom (m1 :: rest) next data)).
Proof.
  unfold chainProcess. cbn [length].
  destruct (decide (1 < S (S (length rest)))); [|lia].
  f_equal. extensionality ctx. extensionality data. extensionality next.
  rewrite chainHandler_chainFrom by (cbn; lia). reflexivity.
Qed.

(** The terminal function of a nest only ever sees [data]. *)
Lemma chainFrom_next_data (rest : list Middleware) (next : Process)
    (data : Data) :
  chainFrom rest next data = chainFrom rest (fun c _ => next c data) data.
Proof.
  induction rest as [|h rest IH]; cbn; [reflexivity|].
  rewrite IH. reflexivity.
Qed.

Lemma chainProcess_cons_nonempty (m0 : Middleware) (rest : list Middleware) :
  rest <> [] ->
  chainProcess (m0 :: rest) =
  Some (fun ctx data next => call m0 ctx data (chainFrom rest next data)).
Proof.
  destruct rest as [|m1 rest]; [contradiction|].
  intros _. apply chainProcess_cons_cons.
Qed.

(** With two or more middleware the terminal function is called with the
    data the composed function was called with, whatever the last middleware
    hands to its continuation. *)
Lemma chainProcess_terminal_data (hs : list Middleware) (ctx : Ctx)
    (data : Data) (next : Process) :
  2 <= length hs ->
  call (chainProcess hs) ctx data next =
  call (chainProcess hs) ctx data (fun c _ => next c data).
Proof.
  destruct hs as [|m0 [|m1 rest]]; cbn [length]; [lia | lia | intros _].
  rewrite chainProcess_cons_cons. cbn [call].
  rewrite chainFrom_next_data. reflexivity.
Qed.

(** A middleware that is not the last one has the next middleware called
    with the context and data it hands to its continuation. *)
Lemma chainHandler_forwards (hs : list Middleware) (next : Process)
    (data : Data) (curI : nat) (h : Middleware) (c : Ctx) (d : Data) :
  hs !! (curI + 1) = Some h ->
  chainHandler hs next data curI c d =
  call h c d (chainHandler hs next data (curI + 1)).
Proof. intros Hh. rewrite (chainHandler_step _ _ _ _ _ Hh). reflexivity. Qed.

Lemma chainProcess_head_cut (m : Middleware) (post : list Middleware)
    (body : Process) (ctx : Ctx) (data : Data) (next : Process) :
  (forall c d k, call m c d k = body c d) ->
  call (chainProcess (m :: post)) ctx data next = body ctx data.
Proof.
  intros Hm. destruct post as [|m1 rest].
  - apply Hm.
  - rewrite chainProcess_cons_cons. cbn [call]. apply Hm.
Qed.

(** *** The claims on [chainProcess] *)

(** C8. Composing the empty list of middleware gives the pass-through: for
    every context, data, terminal function and state of the world, the
    composed function is the call of the terminal function on that context
    and data, and returns what it returns. *)
Theorem chainProcess_nil_pass_through :
  chainProcess ([] : list Middleware) =
    Some (fun ctx data next => next ctx data) /\
  forall (ctx : Ctx) (data : Data) (next : Process) (s : St),
    call (chainProcess []) ctx data next s = next ctx data s.
Proof.
  split.
  - unfold chainProcess. cbn [length].
    destruct (decide (1 < 0)); [lia|].
    destruct (decide (0 = 1)); [discriminate | reflexivity].
  - intros ctx data next s. reflexivity.
Qed.

(** C9. Composing one middleware returns that middleware itself, so the
    composed function and the middleware agree on every input. *)
Theorem chainProcess_single (m : Middleware) :
  chainProcess [m] = m /\
  forall (ctx : Ctx) (data : Data) (next : Process) (s : St),
    call (chainProcess [m]) ctx data next s = call m ctx data next s.
Proof. split; reflexivity. Qed.

(** C3 (amended). Take a call of the middleware [m] at some position of a
    chain, with context [c] and data [d] in the world [s], and let [m]
    return the pair [r] on that call whatever its continuation is, that is,
    without invoking it.  Then, whatever middleware [post] come later in the
    chain and whatever the terminal function [next] is, none of them has a
    part in that call: when [m] is the first middleware, the composed call
    returns [r]; otherwise the call of the continuation of the middleware
    before [m] (the closure at the cursor of that middleware) returns [r],
    and that middleware, and the ones before it, decide what they return in
    turn. *)
Theorem chain_short_circuit (pre post : list Middleware) (m : Middleware)
    (c : Ctx) (d : Data) (s s' : St) (r : Result) :
  (forall k, call m c d k s = (Val r, s')) ->
  (pre = [] ->
   forall next,
     call (chainProcess (pre ++ m :: post)) c d next s = (Val r, s')) /\
  (pre <> [] ->
   forall next data,
     chainHandler (pre ++ m :: post) next data (length pre - 1) c d s =
     (Val r, s')).
Proof.
  intros Hm. split.
  - intros -> next. cbn [app]. destruct post as [|m1 rest].
    + apply Hm.
    + rewrite chainProcess_cons_cons. cbn [call]. apply Hm.
  - intros Hpre next data.
    assert (0 < length pre) by (destruct pre; [contradiction | cbn; lia]).
    assert ((pre ++ m :: post) !! (length pre - 1 + 1) = Some m) as Hat.
    { replace (length pre - 1 + 1) with (length pre) by lia.
      apply list_lookup_middle. reflexivity. }
    rewrite (chainHandler_step _ _ _ _ _ Hat). apply Hm.
Qed.

(** *** [Transition.Can] *)

Lemma rangeSrc_value (srcs : list Stringer) (d : D) (s : St) :
  rangeSrc srcs (Some d) s = (Val (bool_decide (GetState d ∈ srcs)), s).
Proof.
  induction srcs as [|src rest IH]; cbn.
  - reflexivity.
  - unfold bind; cbn. destruct (decide (GetState d = src)) as [->|Hne].
    + rewrite bool_decide_eq_true_2 by left. reflexivity.
    + rewrite IH. f_equal. f_equal. apply bool_decide_ext.
      rewrite elem_of_cons. tauto.
Qed.

Lemma rangeSrc_state (srcs : list Stringer) (data : Data) (s : St) :
  snd (rangeSrc srcs data s) = s.
Proof.
  destruct data as [d|].
  - rewrite rangeSrc_value. reflexivity.
  - destruct srcs; reflexivity.
Qed.

Lemma Transition_Can_state (tr : Transition) (data : Data) (s : St) :
  snd (Transition_Can tr data s) = s.
Proof.
  unfold Transition_Can. case_decide; [reflexivity | apply rangeSrc_state].
Qed.

Lemma Transition_Can_run (tr : Transition) (data : Data) (s : St) :
  exists o, Transition_Can tr data s = (o, s).
Proof.
  pose proof (Transition_Can_state tr data s) as Hs.
  destruct (Transition_Can tr data s) as [o s']. cbn in Hs. subst s'. eauto.
Qed.

(** C4. [Transition.Can] returns true when [Src] is empty, whatever the
    data; when [Src] is not empty and the data is an entity [d], it returns a
    boolean that is true exactly when the state of [d] is equal to some
    element of [Src]; and in every case it leaves the state of the world as
    it found it. *)
Theorem Transition_Can_spec (tr : Transition) (data : Data) (s : St) :
  (tr_Src tr = [] -> Transition_Can tr data s = (Val true, s)) /\
  (tr_Src tr <> [] ->
   forall d, data = Some d ->
     exists b, Transition_Can tr data s = (Val b, s) /\
       (b = true <-> exists src, src ∈ tr_Src tr /\ GetState d = src)) /\
  snd (Transition_Can tr data s) = s.
Proof.
  split; [|split].
  - intros Hsrc. unfold Transition_Can. rewrite Hsrc. reflexivity.
  - intros Hsrc d ->. unfold Transition_Can.
    destruct (decide (length (tr_Src tr) = 0)) as [Hlen|_].
    + apply length_zero_iff_nil in Hlen. contradiction.
    + rewrite rangeSrc_value. eexists. split; [reflexivity|].
      rewrite bool_decide_eq_true. split.
      * intros Hin. exists (GetState d). split; [exact Hin | reflexivity].
      * intros (src & Hin & ->). exact Hin.
  - apply Transition_Can_state.
Qed.

(** *** The registry: [Get], [Can], [Add], [Apply] *)

Lemma Workflow_Get_run (h : heap) (w : Workflow) (data : Data)
    (transit : Stringer) (s : St) :
  exists o, Workflow_Get h w data transit s = (o, s).
Proof.
  unfold Workflow_Get. destruct (w_transitions w !! transit) as [tr|].
  - unfold bind, load. destruct (deref h tr) as [t|]; cbn; [|eauto].
    destruct (Transition_Can_run t data s) as [o ->].
    destruct o as [[|]|]; cbn; eauto.
  - cbn. eauto.
Qed.

Lemma Workflow_Get_registered (h : heap) (w : Workflow) (data : Data)
    (transit : Stringer) (s : St) (tr : ptr) (t : Transition) (o : outcome bool) :
  w_transitions w !! transit = Some tr ->
  deref h tr = Some t ->
  Transition_Can t data s = (o, s) ->
  Workflow_Get h w data transit s =
  (match o with
   | Val true => Val tr
   | Val false => Val None
   | Panic => Panic
   end, s).
Proof.
  intros Htr Ht Hcan. unfold Workflow_Get, bind, load.
  rewrite Htr, Ht. cbn. rewrite Hcan. destruct o as [[|]|]; reflexivity.
Qed.

Lemma Workflow_Can_of_Get (h : heap) (w : Workflow) (data : Data)
    (transit : Stringer) (s : St) (o : outcome ptr) :
  Workflow_Get h w data transit s = (o, s) ->
  Workflow_Can h w data transit s =
  (match o with
   | Val (Some _) => Val true
   | Val None => Val false
   | Panic => Panic
   end, s).
Proof.
  intros Hget. unfold Workflow_Can, bind. rewrite Hget.
  destruct o as [[l|]|]; reflexivity.
Qed.

(** C7. [Get] returns nil in exactly two cases, the name is not registered
    or the guard of the registered transition rejects the state of the
    entity, and returns the same nil in both; [Workflow.Can] returns true
    exactly when [Get] returns a transition, and false exactly when [Get]
    returns nil. *)
Theorem Workflow_Get_nil_cases (h : heap) (w : Workflow) (data : Data)
    (transit : Stringer) (s : St) :
  (Workflow_Get h w data transit s = (Val None, s) <->
     w_transitions w !! transit = None \/
     exists tr t, w_transitions w !! transit = Some tr /\
       deref h tr = Some t /\ Transition_Can t data s = (Val false, s)) /\
  (Workflow_Can h w data transit s = (Val true, s) <->
     exists l, Workflow_Get h w data transit s = (Val (Some l), s)) /\
  (Workflow_Can h w data transit s = (Val false, s) <->
     Workflow_Get h w data transit s = (Val None, s)).
Proof.
  split; [|split].
  - destruct (w_transitions w !! transit) as [tr|] eqn:Htr.
    + destruct (deref h tr) as [t|] eqn:Ht.
      * destruct (Transition_Can_run t data s) as [o Hcan].
        rewrite (Workflow_Get_registered _ _ _ _ _ _ _ _ Htr Ht Hcan).
        split.
        -- destruct o as [[|]|]; intros Heq; [|right; eauto|discriminate].
           assert (tr = None) as -> by congruence. discriminate.
        -- intros [?|(tr' & t' & Htr' & Ht' & Hcan')]; [discriminate|].
           injection Htr' as <-. rewrite Ht in Ht'. injection Ht' as <-.
           rewrite Hcan in Hcan'. injection Hcan' as ->. reflexivity.
      * unfold Workflow_Get, bind, load. rewrite Htr, Ht. cbn.
        split; [discriminate|].
        intros [?|(tr' & t' & ? & Ht' & _)]; [discriminate|]. congruence.
    + unfold Workflow_Get. rewrite Htr. split; [auto | reflexivity].
  - destruct (Workflow_Get_run h w data transit s) as [o Hget].
    rewrite (Workflow_Can_of_Get _ _ _ _ _ _ Hget), Hget.
    destruct o as [[l|]|]; split; try discriminate; eauto.
    all: intros [l' ?]; discriminate.
  - destruct (Workflow_Get_run h w data transit s) as [o Hget].
    rewrite (Workflow_Can_of_Get _ _ _ _ _ _ Hget), Hget.
    destruct o as [[l|]|]; split; intros; try discriminate; reflexivity.
Qed.

(** C6. [Add] with a name that is already registered returns
    [ErrDuplicateTransit] and changes nothing: the map of the workflow and
    the structs behind the pointers are the ones it was given, so the first
    registration stays the one that is stored and used. *)
Theorem Workflow_Add_duplicate (h : heap) (w : Workflow) (name : Stringer)
    (transit : ptr) (mw : list Middleware) :
  is_Some (w_transitions w !! name) ->
  Workflow_Add h w name transit mw = Val (h, w, Some ErrDuplicateTransit).
Proof.
  intros Hreg. unfold Workflow_Add.
  destruct (decide (is_Some (w_transitions w !! name))); [reflexivity|].
  contradiction.
Qed.

(** C5 (amended). When no transition is registered under [transit]:
    [Can] returns false; [Apply] is the call of the global middleware chain
    on a continuation that returns nil data and [ErrTransitNotAllowed]
    without looking at any transition, its middleware or the apply function;
    and when the workflow has no global middleware, [Apply] itself returns
    nil data and [ErrTransitNotAllowed]. *)
Theorem Workflow_unregistered (h : heap) (w : Workflow) (ctx : Ctx)
    (data : Data) (transit : Stringer) :
  w_transitions w !! transit = None ->
  (forall s, Workflow_Can h w data transit s = (Val false, s)) /\
  Workflow_Apply h w ctx data transit =
    call (w_mw w) ctx data (fun _ _ => ret (None, Some ErrTransitNotAllowed)) /\
  (w_mw w = chainProcess [] ->
   forall s, Workflow_Apply h w ctx data transit s =
             (Val (None, Some ErrTransitNotAllowed), s)).
Proof.
  intros Hnone.
  assert (Workflow_Apply h w ctx data transit =
          call (w_mw w) ctx data
            (fun _ _ => ret (None, Some ErrTransitNotAllowed))) as Happly.
  { unfold Workflow_Apply, Workflow_Get. rewrite Hnone. reflexivity. }
  split; [|split].
  - intros s. unfold Workflow_Can, Workflow_Get. rewrite Hnone. reflexivity.
  - exact Happly.
  - intros Hmw s. rewrite Happly, Hmw. reflexivity.
Qed.

(** *** Nil middleware *)

Lemma chainProcess_is_Some (hs : list Middleware) :
  Forall is_Some hs -> is_Some (chainProcess hs).
Proof.
  intros Hall. unfold chainProcess.
  destruct (decide (1 < length hs)); [eauto|].
  destruct (decide (length hs = 1)) as [Hone|]; [|eauto].
  destruct hs as [|m [|? ?]]; try discriminate.
  inversion Hall; subst. assumption.
Qed.

(** What a successful [Add] has done. *)
Lemma Workflow_Add_success (h : heap) (w : Workflow) (name : Stringer)
    (transit : ptr) (mw : list Middleware) (h' : heap) (w' : Workflow) :
  Workflow_Add h w name transit mw = Val (h', w', None) ->
  exists l t,
    transit = Some l /\ h !! l = Some t /\ w_transitions w !! name = None /\
    h' = <[l := {| tr_Src := tr_Src t; tr_Dst := tr_Dst t;
                   tr_Middleware :=
                     chainProcess (match tr_Middleware t with
                                   | Some _ => mw ++ [tr_Middleware t]
                                   | None => mw
                                   end) |}]> h /\
    w_transitions w' = <[name := transit]> (w_transitions w) /\
    w_apply w' = w_apply w /\ w_mw w' = w_mw w.
Proof.
  unfold Workflow_Add.
  destruct (decide (is_Some (w_transitions w !! name))) as [|Hfree];
    [discriminate|].
  apply eq_None_not_Some in Hfree.
  destruct transit as [l|]; [|discriminate].
  destruct (h !! l) as [t|] eqn:Ht; [|discriminate].
  intros Heq. injection Heq as <- <-. exists l, t. cbn. auto 10.
Qed.

Lemma Workflow_Add_registry_ok (h : heap) (w : Workflow) (name : Stringer)
    (transit : ptr) (mw : list Middleware) (h' : heap) (w' : Workflow) :
  Forall is_Some mw ->
  Workflow_Add h w name transit mw = Val (h', w', None) ->
  registry_ok h w -> registry_ok h' w'.
Proof.
  intros Hmw Hadd Hok.
  destruct (Workflow_Add_success _ _ _ _ _ _ _ Hadd)
    as (l & t & -> & Ht & Hfree & -> & Hmap & _ & _).
  assert (is_Some (chainProcess (match tr_Middleware t with
                                 | Some _ => mw ++ [tr_Middleware t]
                                 | None => mw
                                 end))) as [f Hf].
  { apply chainProcess_is_Some. destruct (tr_Middleware t) eqn:Hm; [|exact Hmw].
    apply Forall_app. split; [exact Hmw|]. repeat constructor. eauto. }
  assert (forall p t0 f0, deref h p = Some t0 -> tr_Middleware t0 = Some f0 ->
            exists t1 f1, deref (<[l := {| tr_Src := tr_Src t; tr_Dst := tr_Dst t;
                                          tr_Middleware := Some f |}]> h) p = Some t1 /\
                          tr_Middleware t1 = Some f1) as Hkeep.
  { intros [l0|] t0 f0 Hp Hm0; [|discriminate]. unfold deref in *.
    destruct (decide (l = l0)) as [->|Hne].
    - rewrite lookup_insert_eq. eauto.
    - rewrite lookup_insert_ne by exact Hne. eauto. }
  intros name' p. rewrite Hmap, Hf.
  destruct (decide (name = name')) as [->|Hne].
  - rewrite lookup_insert_eq. intros [= <-]. unfold deref.
    rewrite lookup_insert_eq. eauto.
  - rewrite lookup_insert_ne by exact Hne. intros Hp.
    destruct (Hok _ _ Hp) as (t0 & f0 & Hd & Hm0). eauto.
Qed.

(** C10 (amended). When every middleware given to [NewWorkflow] is a
    function, the global chain of the new workflow is a function, and it is
    the pass-through when none is given.  When every extra middleware given
    to [Add] is a function and [Add] succeeds, the [Middleware] of the stored
    transition is a function (the pass-through when there is no extra and no
    attached middleware), the global chain is untouched, and the registry
    keeps the property that every registered transition has a function as
    its [Middleware]; a new workflow has that property.  In a registry with
    that property every transition that [Get] returns, and so every
    transition whose [Middleware] [Apply] calls, has a function there. *)
Theorem middleware_never_nil :
  (forall (apply : Apply) (gm : list Middleware),
      Forall is_Some gm -> is_Some (w_mw (NewWorkflow apply gm))) /\
  (forall apply : Apply,
      w_mw (NewWorkflow apply []) = Some (fun ctx data next => next ctx data)) /\
  (forall (h : heap) (w : Workflow) (name : Stringer) (transit : ptr)
      (mw : list Middleware) (h' : heap) (w' : Workflow),
      Forall is_Some mw ->
      Workflow_Add h w name transit mw = Val (h', w', None) ->
      w_mw w' = w_mw w /\
      (exists t f, w_transitions w' !! name = Some transit /\
         deref h' transit = Some t /\ tr_Middleware t = Some f) /\
      (mw = [] ->
       forall t0, deref h transit = Some t0 -> tr_Middleware t0 = None ->
         exists t, deref h' transit = Some t /\
           tr_Middleware t = Some (fun ctx data next => next ctx data)) /\
      (registry_ok h w -> registry_ok h' w')) /\
  (forall (h : heap) (apply : Apply) (gm : list Middleware),
      registry_ok h (NewWorkflow apply gm)) /\
  (forall (h : heap) (w : Workflow) (data : Data) (transit : Stringer)
      (s : St) (tr : ptr),
      registry_ok h w ->
      Workflow_Get h w data transit s = (Val tr, s) -> tr <> None ->
      exists t f, deref h tr = Some t /\ tr_Middleware t = Some f).
Proof.
  split; [|split; [|split; [|split]]].
  - intros apply gm Hgm. cbn. apply chainProcess_is_Some, Hgm.
  - reflexivity.
  - intros h w name transit mw h' w' Hmw Hadd.
    destruct (Workflow_Add_success _ _ _ _ _ _ _ Hadd)
      as (l & t & -> & Ht & Hfree & -> & Hmap & _ & Hgm).
    split; [exact Hgm|]. split; [|split].
    + assert (is_Some (chainProcess (match tr_Middleware t with
                                     | Some _ => mw ++ [tr_Middleware t]
                                     | None => mw
                                     end))) as [f Hf].
      { apply chainProcess_is_Some.
        destruct (tr_Middleware t) eqn:Hm; [|exact Hmw].
        apply Forall_app. split; [exact Hmw|]. repeat constructor. eauto. }
      eexists _, f. rewrite Hmap, lookup_insert_eq. unfold deref.
      rewrite lookup_insert_eq. repeat split. exact Hf.
    + intros -> t0 Ht0 Hnil. unfold deref in *. rewrite Ht in Ht0.
      injection Ht0 as <-. rewrite Hnil. rewrite lookup_insert_eq.
      eexists. split; reflexivity.
    + apply (Workflow_Add_registry_ok _ _ _ _ _ _ _ Hmw Hadd).
  - intros h apply gm name p. cbn. rewrite lookup_empty. discriminate.
  - intros h w data transit s tr Hok Hget Hnn.
    unfold Workflow_Get in Hget.
    destruct (w_transitions w !! transit) as [p|] eqn:Hp.
    + destruct (Hok _ _ Hp) as (t & f & Hd & Hm).
      unfold bind, load in Hget. rewrite Hd in Hget. cbn in Hget.
      destruct (Transition_Can_run t data s) as [o Ho]. rewrite Ho in Hget.
      destruct o as [[|]|]; cbn in Hget; try discriminate.
      * injection Hget as <-. eauto.
      * injection Hget as <-. contradiction.
    + injection Hget as <-. contradiction.
Qed.

End WorkflowFacts.

(** ** The tests and probes *)

Import Tests.

(** The other tests of the repository pass on the embedding. *)
Example TestWorkflow_Apply_passes :
  TestWorkflow_Apply =
  Some (Val (None, Some ErrTransitNotAllowed), Some newState, Some doneState).
Proof. vm_compute. reflexivity. Qed.

Example TestWorkflow_Can_passes :
  TestWorkflow_Can = Some (Val true, Val false, Val false).
Proof. vm_compute. reflexivity. Qed.

(** C2. [TestWorkflow_Apply_Middleware]: after the three registrations, the
    calls of [Apply] for [toNew], [toDone] and [toCancel] on a fresh entity
    all succeed, the middleware have recorded ["new"], then ["done"], then
    ["cancel add 1"], ["cancel add 2"], ["cancel add 3"], ["cancel"], and
    the entity returned last is in state ["cancel"]. *)
Theorem TestWorkflow_Apply_Middleware_passes :
  TestWorkflow_Apply_Middleware =
  Some (["new"],
        ["new"; "done"],
        ["new"; "done"; "cancel add 1"; "cancel add 2"; "cancel add 3"; "cancel"],
        Some cancelState).
Proof. vm_compute. reflexivity. Qed.

(** C1 (the code at the failing input). In the chain of [passThrough] and
    [withState doneState], the last middleware hands an entity in state
    ["done"] to its continuation, and the terminal function [echo] receives
    and returns the entity in state ["new"] the chain was called with;
    composed alone, [withState doneState] does hand ["done"] to [echo]. *)
Theorem chainProcess_terminal_receives_first_data :
  call (chainProcess [passThrough; withState doneState]) () newData echo [] =
    (Val (newData, None), []) /\
  call (chainProcess [withState doneState]) () newData echo [] =
    (Val (Some {| state := doneState |}, None), []).
Proof. split; vm_compute; reflexivity. Qed.

(** C3 (counterexample). [deny] never calls its continuation, and in the
    chain of [swallow] and [deny] the result of the chain is not the pair
    [deny] returns: [swallow] replaces the error by nil. *)
Lemma chain_result_not_of_short_circuit :
  (forall c d k, call deny c d k = denied c d) /\
  call (chainProcess [swallow; deny]) () newData echo [] = (Val (newData, None), []) /\
  call (chainProcess [swallow; deny]) () newData echo [] <> denied () newData [].
Proof.
  split; [reflexivity|]. split; [vm_compute; reflexivity|].
  vm_compute. discriminate.
Qed.

(** C3 (witness): [requireData] called with nil data, after
    [passThrough] and before [withState doneState]. *)
Lemma chain_short_circuit_witness :
  (forall k, call requireData () None k [] =
             (Val (None, Some (ErrUser "no data")), [])) /\
  chainHandler ([passThrough] ++ requireData :: [withState doneState])
    echo newData 0 () None [] =
  (Val (None, Some (ErrUser "no data")), []).
Proof.
  pose proof (chain_short_circuit [passThrough] [withState doneState]
                requireData () None [] [] (None, Some (ErrUser "no data"))
                (fun k => eq_refl)) as (_ & Hprev).
  split; [reflexivity|].
  apply (Hprev ltac:(discriminate)).
Defined.

(** C5 (counterexample). A workflow with the global middleware [deny] and no
    transition: [Apply] returns the data and the error of [deny], not nil and
    [ErrTransitNotAllowed]. *)
Lemma Apply_unregistered_under_global_deny :
  w_transitions (NewWorkflow setState [deny]) !! toNew = None /\
  Workflow_Apply ∅ (NewWorkflow setState [deny]) () newData toNew [] =
    (Val (newData, Some (ErrUser "denied")), []) /\
  Workflow_Apply ∅ (NewWorkflow setState [deny]) () newData toNew [] <>
    (Val (None, Some ErrTransitNotAllowed), []).
Proof.
  split; [reflexivity|]. split; [vm_compute; reflexivity|].
  vm_compute. discriminate.
Qed.

(** C5 (witness): [toDone] in a workflow without transitions. *)
Lemma Workflow_unregistered_witness :
  w_transitions (NewWorkflow setState []) !! toDone = None /\
  (forall s, Workflow_Can scenarioHeap (NewWorkflow setState []) newData toDone s =
             (Val false, s)) /\
  (forall s, Workflow_Apply scenarioHeap (NewWorkflow setState []) () newData toDone s =
             (Val (None, Some ErrTransitNotAllowed), s)).
Proof.
  pose proof (Workflow_unregistered scenarioHeap (NewWorkflow setState []) ()
                newData toDone eq_refl) as (Hcan & _ & Happly).
  split; [reflexivity|]. split; [exact Hcan|]. exact (Happly eq_refl).
Defined.

(** C6 (witness). [TestWorkflow_Add]: after [toNew] is registered, adding
    [toNew] again with another transition returns [ErrDuplicateTransit] and
    the same heap and workflow. *)
Lemma Workflow_Add_duplicate_witness :
  match addFirst with
  | Val (h, w, None) =>
      is_Some (w_transitions w !! toNew) /\
      Workflow_Add h w toNew (Some 2%positive) [] =
        Val (h, w, Some ErrDuplicateTransit)
  | _ => False
  end.
Proof.
  let r := eval vm_compute in addFirst in change addFirst with r.
  cbv beta iota.
  assert (forall (h : THeap) (w : TWorkflow),
             is_Some (w_transitions w !! toNew) ->
             is_Some (w_transitions w !! toNew) /\
             Workflow_Add h w toNew (Some 2%positive) [] =
               Val (h, w, Some ErrDuplicateTransit)) as Hdup.
  { intros h w Hreg. split; [exact Hreg|].
    exact (Workflow_Add_duplicate h w toNew (Some 2%positive) [] Hreg). }
  apply Hdup. vm_compute. eexists. reflexivity.
Defined.

(** C10 (counterexample). [Add] with nil as its only extra middleware, on a
    transition without attached middleware, succeeds and stores nil as the
    [Middleware] of the transition; [Apply] of that transition then panics.
    [NewWorkflow] with nil as its only middleware sets the global chain to
    nil. *)
Lemma Add_stores_nil_middleware :
  exists (h : THeap) (w : TWorkflow),
    Workflow_Add scenarioHeap (NewWorkflow setState []) toNew (Some 1%positive)
      [None] = Val (h, w, None) /\
    w_transitions w !! toNew = Some (Some 1%positive) /\
    tr_Middleware <$> h !! 1%positive = Some None /\
    Workflow_Apply h w () newData toNew [] = (Panic, []) /\
    w_mw (NewWorkflow setState [None]) = None.
Proof.
  eexists _, _. split; [vm_compute; reflexivity|].
  repeat split; vm_compute; reflexivity.
Qed.

(** C10 (witness). The first registration of
    [TestWorkflow_Apply_Middleware]. *)
Lemma middleware_never_nil_witness :
  match Workflow_Add scenarioHeap (NewWorkflow setState []) toNew
          (Some 1%positive) [Success "new"] with
  | Val (h, w, None) =>
      Forall is_Some [Success "new"] /\
      exists t f, w_transitions w !! toNew = Some (Some 1%positive) /\
        deref h (Some 1%positive) = Some t /\ tr_Middleware t = Some f
  | _ => False
  end.
Proof.
  destruct (Workflow_Add scenarioHeap (NewWorkflow setState []) toNew
              (Some 1%positive) [Success "new"])
    as [[[h w] [e|]]|] eqn:Hadd; [discriminate Hadd| |discriminate Hadd].
  assert (Forall is_Some [Success "new"]) as Hmw by (repeat constructor; eauto).
  split; [exact Hmw|].
  destruct (middleware_never_nil (Ctx := ()) (St := world) (D := testData)
              (UErr := string) (Stringer := stringer))
    as (_ & _ & Hstored & _).
  destruct (Hstored _ _ _ _ _ _ _ Hmw Hadd) as (_ & Hfn & _).
  exact Hfn.
Defined.

(** ** Further properties of the package *)

Section WorkflowLaws.
Context {Ctx St D UErr Stringer : Type}.
Context `{!EqDecision Stringer, !Countable Stringer, !HasState D Stringer}.

Local Abbreviation Data := (@Data D).
Local Abbreviation error := (@error UErr).
Local Abbreviation Result := (@Result D UErr).
Local Abbreviation Process := (@Process Ctx St D UErr).
Local Abbreviation Middleware := (@Middleware Ctx St D UErr).
Local Abbreviation Apply := (@Apply Ctx St D UErr Stringer).
Local Abbreviation Transition := (@Transition Ctx St D UErr Stringer).
Local Abbreviation Workflow := (@Workflow Ctx St D UErr Stringer _ _).
Local Abbreviation heap := (gmap loc Transition).

(** *** Composition *)

Lemma chainFrom_no_panic (hs : list Middleware) (next : Process)
    (data : Data) :
  Forall no_panic_mw hs -> no_panic next -> no_panic (chainFrom hs next data).
Proof.
  intros Hall Hnext. induction Hall as [|m rest Hm _ IH]; intros c d s.
  - apply Hnext.
  - cbn. apply Hm, IH.
Qed.

(** X1. In a chain in which nothing panics (every middleware returns as long
    as its continuation does, and the terminal function returns), and which
    has not exactly one element, the cursor of [chainProcess] and nested
    continuations agree: the composed call runs the first middleware on a
    continuation that runs the second, and so on, the last continuation
    calling the terminal function on the data of the composed call; and the
    composed call returns. *)
Theorem chainProcess_is_nest (hs : list Middleware) (ctx : Ctx) (data : Data)
    (next : Process) :
  Forall no_panic_mw hs ->
  no_panic next ->
  length hs <> 1 ->
  call (chainProcess hs) ctx data next = chainFrom hs next data ctx data /\
  forall s, fst (call (chainProcess hs) ctx data next s) <> Panic.
Proof.
  intros Hall Hnext Hlen.
  assert (call (chainProcess hs) ctx data next = chainFrom hs next data ctx data)
    as Hnest.
  { destruct hs as [|m0 [|m1 rest]]; cbn [length] in Hlen.
    - reflexivity.
    - contradiction.
    - rewrite chainProcess_cons_cons. reflexivity. }
  split; [exact Hnest|].
  intros s. rewrite Hnest. apply chainFrom_no_panic; assumption.
Qed.

(** X2. With two or more middleware, the composed function uses the
    terminal function only on the data of the composed call: two terminal
    functions that agree on that data, for every context, give the same
    composed call, whatever data the middleware hand to their
    continuations. *)
Theorem chainProcess_terminal_on_call_data (hs : list Middleware) (ctx : Ctx)
    (data : Data) (next1 next2 : Process) :
  2 <= length hs ->
  (forall c, next1 c data = next2 c data) ->
  call (chainProcess hs) ctx data next1 = call (chainProcess hs) ctx data next2.
Proof.
  intros Hlen Hagree.
  rewrite (chainProcess_terminal_data hs ctx data next1 Hlen).
  rewrite (chainProcess_terminal_data hs ctx data next2 Hlen).
  f_equal. extensionality c. extensionality d. apply Hagree.
Qed.

Lemma chainFrom_transparent (hs : list Middleware) (next : Process)
    (data : Data) (c : Ctx) (d : Data) :
  Forall (fun m => forall c d k, call m c d k = k c d) hs ->
  chainFrom hs next data c d = next c data.
Proof.
  intros Hall. revert c d. induction Hall as [|m rest Hm _ IH]; intros c d.
  - reflexivity.
  - cbn. rewrite Hm. apply IH.
Qed.

Lemma call_chainProcess_transparent (hs : list Middleware) (ctx : Ctx)
    (data : Data) (next : Process) :
  Forall (fun m => forall c d k, call m c d k = k c d) hs ->
  call (chainProcess hs) ctx data next = next ctx data.
Proof.
  intros Hall. destruct hs as [|m0 [|m1 rest]].
  - reflexivity.
  - inversion Hall as [|? ? Hm _]; subst. apply Hm.
  - rewrite chainProcess_cons_cons. cbn [call].
    inversion Hall as [|? ? Hm Hrest]; subst.
    rewrite Hm. apply chainFrom_transparent, Hrest.
Qed.

(** X4. [chainProcess] returns nil for one list only, the list whose single
    element is nil; a longer list that starts with nil gives a function, and
    calling it panics at once. *)
Theorem chainProcess_nil_iff (hs : list Middleware) :
  (chainProcess hs = None <-> hs = [None]) /\
  (forall (rest : list Middleware) ctx data next (s : St),
      rest <> [] ->
      call (chainProcess ((None : Middleware) :: rest)) ctx data next s =
        (Panic, s)).
Proof.
  split.
  - split.
    + destruct hs as [|m0 [|m1 rest]].
      * discriminate.
      * intros Hnil. change (m0 = None) in Hnil. rewrite Hnil. reflexivity.
      * rewrite chainProcess_cons_cons. discriminate.
    + intros ->. reflexivity.
  - intros rest ctx data next s Hrest.
    rewrite chainProcess_cons_nonempty by exact Hrest. reflexivity.
Qed.

(** *** The guard *)

Lemma Transition_Can_Src (t1 t2 : Transition) (data : Data) :
  tr_Src t1 = tr_Src t2 -> Transition_Can t1 data = Transition_Can t2 data.
Proof. intros Hsrc. unfold Transition_Can. rewrite Hsrc. reflexivity. Qed.

Lemma Transition_Can_nil (tr : Transition) (s : St) :
  tr_Src tr <> [] -> Transition_Can tr None s = (Panic, s).
Proof.
  intros Hsrc. unfold Transition_Can.
  destruct (tr_Src tr) as [|src rest]; [contradiction|]. reflexivity.
Qed.

(** X12. With nil as data, the guard of a transition that lists source
    states panics ([GetState] is called on nil), and so do [Get] and
    [Workflow.Can] for a name registered with such a transition. *)
Theorem nil_data_panics (h : heap) (w : Workflow) (transit : Stringer)
    (p : ptr) (t : Transition) (s : St) :
  w_transitions w !! transit = Some p ->
  deref h p = Some t ->
  tr_Src t <> [] ->
  Transition_Can t None s = (Panic, s) /\
  Workflow_Get h w None transit s = (Panic, s) /\
  Workflow_Can h w None transit s = (Panic, s).
Proof.
  intros Hp Ht Hsrc.
  pose proof (Transition_Can_nil t s Hsrc) as Hcan.
  pose proof (Workflow_Get_registered _ _ _ _ _ _ _ _ Hp Ht Hcan) as Hget.
  split; [exact Hcan|]. split; [exact Hget|].
  rewrite (Workflow_Can_of_Get _ _ _ _ _ _ Hget). reflexivity.
Qed.

(** X13. The guard depends on the set of source states only: two
    transitions whose [Src] lists have the same elements, in any order and
    with any repetitions, accept the same data, whatever their [Dst] and
    [Middleware]. *)
Theorem Transition_Can_same_sources (t1 t2 : Transition) (data : Data) :
  (forall x, x ∈ tr_Src t1 <-> x ∈ tr_Src t2) ->
  Transition_Can t1 data = Transition_Can t2 data.
Proof.
  intros Hsame. extensionality s.
  assert (tr_Src t1 = [] <-> tr_Src t2 = []) as Hnil.
  { split; intros Hn.
    - destruct (tr_Src t2) as [|x l]; [reflexivity|].
      assert (x ∈ tr_Src t1) as Hin by (apply Hsame; left).
      rewrite Hn in Hin. inversion Hin.
    - destruct (tr_Src t1) as [|x l]; [reflexivity|].
      assert (x ∈ tr_Src t2) as Hin by (apply Hsame; left).
      rewrite Hn in Hin. inversion Hin. }
  destruct (decide (tr_Src t1 = [])) as [H1|H1].
  - pose proof (proj1 Hnil H1) as H2.
    unfold Transition_Can. rewrite H1, H2. reflexivity.
  - assert (tr_Src t2 <> []) as H2 by (intros H2; apply H1, Hnil, H2).
    destruct data as [d|].
    + unfold Transition_Can.
      destruct (decide (length (tr_Src t1) = 0)) as [Hl|_];
        [apply length_zero_iff_nil in Hl; contradiction|].
      destruct (decide (length (tr_Src t2) = 0)) as [Hl|_];
        [apply length_zero_iff_nil in Hl; contradiction|].
      rewrite !rangeSrc_value. f_equal. f_equal.
      apply bool_decide_ext, Hsame.
    + rewrite !Transition_Can_nil by assumption. reflexivity.
Qed.

(** *** [Add] *)

(** X5. [Add] panics exactly when the name is free and the pointer is nil;
    when it returns, the error is [ErrDuplicateTransit] exactly when the
    name was registered, and nil exactly when the name was free and the
    pointer refers to a struct. *)
Theorem Workflow_Add_outcome (h : heap) (w : Workflow) (name : Stringer)
    (transit : ptr) (mw : list Middleware) :
  (Workflow_Add h w name transit mw = Panic <->
     w_transitions w !! name = None /\ deref h transit = None) /\
  (forall (h' : heap) (w' : Workflow) (e : error),
      Workflow_Add h w name transit mw = Val (h', w', e) ->
      (e = Some ErrDuplicateTransit <-> is_Some (w_transitions w !! name)) /\
      (e = None <->
         w_transitions w !! name = None /\ is_Some (deref h transit))).
Proof.
  unfold Workflow_Add, deref.
  destruct (decide (is_Some (w_transitions w !! name))) as [Hreg|Hfree].
  - assert (w_transitions w !! name <> None) as Hne
        by (destruct Hreg as [? ->]; discriminate).
    split.
    + split; [discriminate | intros [? _]; contradiction].
    + intros h' w' e [= <- <- <-]. split.
      * split; auto.
      * split; [discriminate | intros [? _]; contradiction].
  - apply eq_None_not_Some in Hfree.
    destruct transit as [l|]; [destruct (h !! l) as [t|] eqn:Ht|].
    + split.
      * split; [discriminate | intros [_ ?]; discriminate].
      * intros h' w' e [= <- <- <-]. split.
        -- split; [discriminate|]. rewrite Hfree. intros [? ?]; discriminate.
        -- split; eauto.
    + split; [split; auto | discriminate].
    + split; [split; auto | discriminate].
Qed.

(** What [Add] does to the heap and the map, success or not: every struct
    keeps its [Src] and [Dst], no struct appears or disappears, and every
    name that was registered keeps its pointer. *)
Lemma Workflow_Add_similar (h : heap) (w : Workflow) (name : Stringer)
    (transit : ptr) (mw : list Middleware) (h' : heap) (w' : Workflow)
    (e : error) :
  Workflow_Add h w name transit mw = Val (h', w', e) ->
  (forall p, option_Forall2
               (fun t t' => tr_Src t' = tr_Src t /\ tr_Dst t' = tr_Dst t)
               (deref h p) (deref h' p)) /\
  (forall n, n <> name -> w_transitions w' !! n = w_transitions w !! n) /\
  (forall n q, w_transitions w !! n = Some q -> w_transitions w' !! n = Some q) /\
  w_apply w' = w_apply w /\ w_mw w' = w_mw w.
Proof.
  intros Hadd.
  assert (forall p, option_Forall2
            (fun t t' : Transition => tr_Src t' = tr_Src t /\ tr_Dst t' = tr_Dst t)
            (deref h p) (deref h p)) as Hrefl.
  { intros p. destruct (deref h p); constructor. auto. }
  destruct e as [e|].
  - unfold Workflow_Add in Hadd.
    destruct (decide (is_Some (w_transitions w !! name))).
    + injection Hadd as <- <- _. auto 10.
    + destruct transit as [l|]; [|discriminate].
      destruct (h !! l); discriminate.
  - destruct (Workflow_Add_success _ _ _ _ _ _ _ Hadd)
      as (l & t & -> & Ht & Hfree & -> & Hmap & Happly & Hmw).
    split; [|split; [|split; [|split]]]; try assumption.
    + intros [l0|]; [|constructor]. unfold deref.
      destruct (decide (l = l0)) as [<-|Hne].
      * rewrite lookup_insert_eq, Ht. constructor. auto.
      * rewrite lookup_insert_ne by exact Hne. apply (Hrefl (Some l0)).
    + intros n Hn. rewrite Hmap. apply lookup_insert_ne. auto.
    + intros n q Hq. rewrite Hmap.
      rewrite lookup_insert_ne; [exact Hq|]. intros <-. congruence.
Qed.

Lemma Workflow_Get_similar (h h' : heap) (w w' : Workflow) (data : Data)
    (n : Stringer) :
  w_transitions w' !! n = w_transitions w !! n ->
  (forall p, option_Forall2
               (fun t t' => tr_Src t' = tr_Src t /\ tr_Dst t' = tr_Dst t)
               (deref h p) (deref h' p)) ->
  Workflow_Get h' w' data n = Workflow_Get h w data n.
Proof.
  intros Hmap Hheap. unfold Workflow_Get. rewrite Hmap.
  destruct (w_transitions w !! n) as [p|]; [|reflexivity].
  unfold load. destruct (Hheap p) as [t t' [Hsrc _]|]; [|reflexivity].
  unfold bind. extensionality s. cbn.
  rewrite (Transition_Can_Src t' t data Hsrc). reflexivity.
Qed.

(** X6. [Add] never removes or redirects a registration and never changes
    the source states or the destination of a transition: whatever it
    returns, every name that was registered keeps its pointer, every struct
    keeps its [Src] and [Dst], and the apply function and the global chain of
    the workflow stay the same. *)
Theorem Workflow_Add_keeps (h : heap) (w : Workflow) (name : Stringer)
    (transit : ptr) (mw : list Middleware) (h' : heap) (w' : Workflow)
    (e : error) :
  Workflow_Add h w name transit mw = Val (h', w', e) ->
  (forall n q, w_transitions w !! n = Some q -> w_transitions w' !! n = Some q) /\
  (forall l t, h !! l = Some t ->
     exists t', h' !! l = Some t' /\ tr_Src t' = tr_Src t /\ tr_Dst t' = tr_Dst t) /\
  (forall l, h !! l = None -> h' !! l = None) /\
  w_apply w' = w_apply w /\ w_mw w' = w_mw w.
Proof.
  intros Hadd.
  destruct (Workflow_Add_similar _ _ _ _ _ _ _ _ Hadd)
    as (Hheap & _ & Hkeep & Happly & Hmw).
  split; [exact Hkeep|]. split; [|split; [|split; assumption]].
  - intros l t Ht. pose proof (Hheap (Some l)) as Hl. cbn in Hl.
    rewrite Ht in Hl. inversion Hl as [? t' [? ?] Heq1 Heq2|]; subst. eauto.
  - intros l Hnone. pose proof (Hheap (Some l)) as Hl. cbn in Hl.
    rewrite Hnone in Hl. inversion Hl. reflexivity.
Qed.

(** X7. [Add] does not change what [Get] and [Workflow.Can] answer for any
    other name, also when that name is registered with the pointer that
    [Add] was given. *)
Theorem Workflow_Add_other_names (h : heap) (w : Workflow) (name : Stringer)
    (transit : ptr) (mw : list Middleware) (h' : heap) (w' : Workflow)
    (e : error) (n : Stringer) (data : Data) :
  Workflow_Add h w name transit mw = Val (h', w', e) ->
  n <> name ->
  Workflow_Get h' w' data n = Workflow_Get h w data n /\
  Workflow_Can h' w' data n = Workflow_Can h w data n.
Proof.
  intros Hadd Hn.
  destruct (Workflow_Add_similar _ _ _ _ _ _ _ _ Hadd) as (Hheap & Hmap & _).
  assert (Workflow_Get h' w' data n = Workflow_Get h w data n) as Hget
      by (apply Workflow_Get_similar; auto).
  split; [exact Hget|]. unfold Workflow_Can. rewrite Hget. reflexivity.
Qed.

(** X8. After a successful [Add], [Workflow.Can] for the new name is the
    guard of the transition that was given, and [Get] returns the pointer
    that was given exactly when that guard accepts the data. *)
Theorem Workflow_Add_then_Can (h : heap) (w : Workflow) (name : Stringer)
    (transit : ptr) (mw : list Middleware) (h' : heap) (w' : Workflow)
    (t : Transition) (data : Data) (s : St) :
  Workflow_Add h w name transit mw = Val (h', w', None) ->
  deref h transit = Some t ->
  Workflow_Can h' w' data name s = Transition_Can t data s /\
  (Workflow_Get h' w' data name s = (Val transit, s) <->
   Transition_Can t data s = (Val true, s)).
Proof.
  intros Hadd Ht.
  destruct (Workflow_Add_similar _ _ _ _ _ _ _ _ Hadd) as (Hheap & _).
  destruct (Workflow_Add_success _ _ _ _ _ _ _ Hadd)
    as (l & t0 & -> & _ & _ & _ & Hmap & _).
  assert (w_transitions w' !! name = Some (Some l)) as Hname
      by (rewrite Hmap; apply lookup_insert_eq).
  pose proof (Hheap (Some l)) as Hl. rewrite Ht in Hl.
  inversion Hl as [? t' [Hsrc _] Heq1 Heq2|]; subst. symmetry in Heq2.
  destruct (Transition_Can_run t data s) as [o Ho].
  assert (Transition_Can t' data s = (o, s)) as Ho'
      by (rewrite (Transition_Can_Src t' t data Hsrc); exact Ho).
  pose proof (Workflow_Get_registered _ _ _ _ _ _ _ _ Hname Heq2 Ho') as Hget.
  rewrite (Workflow_Can_of_Get _ _ _ _ _ _ Hget), Hget, Ho.
  destruct o as [[|]|]; split; try reflexivity; split; intros Heq;
    try reflexivity; discriminate.
Qed.

(** *** [Apply] *)

(** For a registered name, [Apply] is the global chain around a continuation
    that evaluates the guard on the data it receives and then runs the chain
    of the transition around the apply function. *)
Lemma Workflow_Apply_registered (h : heap) (w : Workflow) (transit : Stringer)
    (p : ptr) (t : Transition) (ctx : Ctx) (data : Data) :
  w_transitions w !! transit = Some p ->
  deref h p = Some t ->
  Workflow_Apply h w ctx data transit =
  call (w_mw w) ctx data (fun c d s =>
    match fst (Transition_Can t d s) with
    | Val true =>
        call (tr_Middleware t) c d (fun c' d' => w_apply w c' d' (tr_Dst t)) s
    | Val false => (Val (None, Some ErrTransitNotAllowed), s)
    | Panic => (Panic, s)
    end).
Proof.
  intros Hp Ht. unfold Workflow_Apply. f_equal.
  extensionality c. extensionality d. extensionality s.
  destruct (Transition_Can_run t d s) as [o Ho].
  unfold bind at 1.
  rewrite (Workflow_Get_registered _ _ _ _ _ _ _ _ Hp Ht Ho), Ho. cbn [fst].
  destruct o as [[|]|].
  - destruct (decide (p <> None)) as [_|Hnil].
    + unfold load. rewrite Ht. reflexivity.
    + exfalso. apply Hnil. intros ->. discriminate Ht.
  - destruct (decide (@None loc <> None)) as [Hne|_];
      [contradiction | reflexivity].
  - reflexivity.
Qed.

(** X3. Middleware that each do nothing but call their continuation on the
    context and data they are given and return its result leave no trace: a
    chain of them is the pass-through, and when the global chain and the
    chain of a registered transition are made of such middleware, [Apply] on
    data that the guard accepts returns exactly what the apply function
    returns for that data and the destination of the transition, data and
    error unchanged. *)
Theorem chainProcess_transparent (gm tm : list Middleware) :
  Forall (fun m => forall c d k, call m c d k = k c d) gm ->
  Forall (fun m => forall c d k, call m c d k = k c d) tm ->
  (forall ctx data next, call (chainProcess gm) ctx data next = next ctx data) /\
  (forall (h : heap) (w : Workflow) (transit : Stringer) (p : ptr)
     (t : Transition) (ctx : Ctx) (data : Data) (s : St),
      w_mw w = chainProcess gm ->
      w_transitions w !! transit = Some p ->
      deref h p = Some t ->
      tr_Middleware t = chainProcess tm ->
      Transition_Can t data s = (Val true, s) ->
      Workflow_Apply h w ctx data transit s = w_apply w ctx data (tr_Dst t) s).
Proof.
  intros Hgm Htm. split.
  - intros ctx data next. apply call_chainProcess_transparent, Hgm.
  - intros h w transit p t ctx data s Hmw Hp Ht Hchain Hcan.
    rewrite (Workflow_Apply_registered _ _ _ _ _ _ _ Hp Ht), Hmw.
    rewrite (call_chainProcess_transparent gm _ _ _ Hgm).
    rewrite Hcan. cbn [fst]. rewrite Hchain.
    rewrite (call_chainProcess_transparent tm _ _ _ Htm). reflexivity.
Qed.

(** X10. In a workflow without global middleware, [Apply] of a registered
    name evaluates the guard on the data: when the guard rejects, it returns
    nil data and [ErrTransitNotAllowed]; when the guard accepts, it is the
    chain of the transition around the apply function called with the
    destination of the transition; when the guard panics, it panics.  The
    state of the world is untouched by the guard. *)
Theorem Workflow_Apply_guard (h : heap) (w : Workflow) (transit : Stringer)
    (p : ptr) (t : Transition) (ctx : Ctx) (data : Data) (s : St) :
  w_mw w = chainProcess [] ->
  w_transitions w !! transit = Some p ->
  deref h p = Some t ->
  Workflow_Apply h w ctx data transit s =
  match fst (Transition_Can t data s) with
  | Val true =>
      call (tr_Middleware t) ctx data
        (fun c d => w_apply w c d (tr_Dst t)) s
  | Val false => (Val (None, Some ErrTransitNotAllowed), s)
  | Panic => (Panic, s)
  end.
Proof.
  intros Hmw Hp Ht.
  rewrite (Workflow_Apply_registered _ _ _ _ _ _ _ Hp Ht), Hmw. reflexivity.
Qed.

(** X11. Register and apply: in a workflow without global middleware, after
    a successful [Add] of a transition without attached middleware and
    without extra middleware, [Apply] of the new name on data that the guard
    accepts is the apply function called with that data and the destination
    of the transition. *)
Theorem Workflow_Add_then_Apply (h : heap) (w : Workflow) (name : Stringer)
    (transit : ptr) (h' : heap) (w' : Workflow) (t : Transition) (ctx : Ctx)
    (data : Data) (s : St) :
  w_mw w = chainProcess [] ->
  deref h transit = Some t ->
  tr_Middleware t = None ->
  Workflow_Add h w name transit [] = Val (h', w', None) ->
  Transition_Can t data s = (Val true, s) ->
  Workflow_Apply h' w' ctx data name s = w_apply w ctx data (tr_Dst t) s.
Proof.
  intros Hglobal Ht Hnil Hadd Hcan.
  destruct (Workflow_Add_success _ _ _ _ _ _ _ Hadd)
    as (l & t0 & -> & Ht0 & _ & -> & Hmap & Happly & Hmw).
  cbn in Ht. rewrite Ht in Ht0. injection Ht0 as <-.
  rewrite Hnil.
  assert (w_transitions w' !! name = Some (Some l)) as Hname
      by (rewrite Hmap; apply lookup_insert_eq).
  rewrite (Workflow_Apply_registered _ _ _ (Some l) _ _ _ Hname
             (lookup_insert_eq _ _ _)).
  rewrite Hmw, Hglobal, Happly.
  change (match fst (Transition_Can t data s) with
          | Val true => w_apply w ctx data (tr_Dst t) s
          | Val false => (Val (None, Some ErrTransitNotAllowed), s)
          | Panic => (Panic, s)
          end = w_apply w ctx data (tr_Dst t) s).
  rewrite Hcan. reflexivity.
Qed.

(** X14. When the chain of a registered transition returns without calling
    its continuation, [Apply] of that name does not depend on the apply
    function: no state is applied. *)
Theorem Workflow_Apply_blocked (h : heap) (w : Workflow) (transit : Stringer)
    (p : ptr) (t : Transition) (body : Process) (apply' : Apply) (ctx : Ctx)
    (data : Data) :
  w_transitions w !! transit = Some p ->
  deref h p = Some t ->
  (forall c d k, call (tr_Middleware t) c d k = body c d) ->
  Workflow_Apply h
    {| w_transitions := w_transitions w; w_apply := apply'; w_mw := w_mw w |}
    ctx data transit =
  Workflow_Apply h w ctx data transit.
Proof.
  intros Hp Ht Hbody.
  rewrite (Workflow_Apply_registered h w _ _ _ _ _ Hp Ht).
  rewrite (Workflow_Apply_registered h
             {| w_transitions := w_transitions w; w_apply := apply';
                w_mw := w_mw w |} _ _ _ _ _ Hp Ht).
  cbn [w_mw w_apply]. f_equal.
  extensionality c. extensionality d. extensionality s.
  rewrite !Hbody. reflexivity.
Qed.

(** X9. One struct under two names: when the pointer given to a successful
    [Add] is given to a second successful [Add] under another name, the two
    names stand for the same struct and cannot be told apart: the map holds
    the same pointer for both, and [Get], [Workflow.Can] and [Apply] behave
    the same for both.  So the first name is applied with whatever chain the
    struct holds after the second [Add], not with the chain that the first
    [Add] stored. *)
Theorem Workflow_Add_shared_pointer (h : heap) (w : Workflow)
    (n1 n2 : Stringer) (transit : ptr) (mw1 mw2 : list Middleware)
    (h1 h2 : heap) (w1 w2 : Workflow) :
  Workflow_Add h w n1 transit mw1 = Val (h1, w1, None) ->
  Workflow_Add h1 w1 n2 transit mw2 = Val (h2, w2, None) ->
  n1 <> n2 /\
  w_transitions w2 !! n1 = Some transit /\
  w_transitions w2 !! n2 = Some transit /\
  (forall data,
      Workflow_Get h2 w2 data n1 = Workflow_Get h2 w2 data n2 /\
      Workflow_Can h2 w2 data n1 = Workflow_Can h2 w2 data n2) /\
  (forall ctx data,
      Workflow_Apply h2 w2 ctx data n1 = Workflow_Apply h2 w2 ctx data n2).
Proof.
  intros Hadd1 Hadd2.
  destruct (Workflow_Add_success _ _ _ _ _ _ _ Hadd1)
    as (l & t & -> & _ & _ & _ & Hmap1 & _).
  destruct (Workflow_Add_success _ _ _ _ _ _ _ Hadd2)
    as (l' & t1 & Hl & Ht1 & Hfree2 & -> & Hmap2 & _).
  injection Hl as <-.
  assert (w_transitions w1 !! n1 = Some (Some l : ptr)) as Hn1
      by (rewrite Hmap1; apply lookup_insert_eq).
  assert (n1 <> n2) as Hne.
  { intros Heq. rewrite <- Heq, Hn1 in Hfree2. discriminate. }
  assert (w_transitions w2 !! n2 = Some (Some l : ptr)) as Hw2n2
      by (rewrite Hmap2; apply lookup_insert_eq).
  assert (w_transitions w2 !! n1 = Some (Some l : ptr)) as Hw2n1.
  { rewrite Hmap2, lookup_insert_ne; [exact Hn1|]. auto. }
  split; [exact Hne|]. split; [exact Hw2n1|]. split; [exact Hw2n2|]. split.
  - intros data. unfold Workflow_Can, Workflow_Get.
    rewrite Hw2n1, Hw2n2. split; reflexivity.
  - intros ctx data. unfold Workflow_Apply, Workflow_Get.
    rewrite Hw2n1, Hw2n2. reflexivity.
Qed.

End WorkflowLaws.

(** ** Middleware order, end to end *)

Lemma chainFrom_Success (names : list string) (next : TProcess) (data d : TData)
    (c : ()) (ex : world) :
  chainFrom (map Success names) next data c d ex = next c data (ex ++ names).
Proof.
  revert ex. induction names as [|n names IH]; intros ex; cbn.
  - rewrite app_nil_r. reflexivity.
  - rewrite IH, <- app_assoc. reflexivity.
Qed.

Lemma chainProcess_Success (names : list string) (next : TProcess)
    (data : TData) (c : ()) (ex : world) :
  call (chainProcess (map Success names)) c data next ex =
  next c data (ex ++ names).
Proof.
  destruct names as [|n0 [|n1 names]].
  - cbn. rewrite app_nil_r. reflexivity.
  - reflexivity.
  - change (map Success (n0 :: n1 :: names))
      with (Success n0 :: Success n1 :: map Success names).
    rewrite (chainProcess_cons_cons (Success n0) (Success n1) (map Success names)
             : chainProcess (Success n0 :: Success n1 :: map Success names) = _).
    cbn [call Success].
    rewrite (chainFrom_Success (n1 :: names)), <- app_assoc. reflexivity.
Qed.

(** X15. Order of the three kinds of middleware.  Take any names [g] for the
    global middleware given to [NewWorkflow], any names [e] for the extra
    middleware given to [Add], and a name [a] for the middleware attached to
    the transition, each middleware recording its name as
    [testMWFactory.Success] does.  [Add] succeeds, and [Apply] on an entity
    records [g], then [e], then [a], in that order, and returns the entity
    in the destination state with a nil error. *)
Theorem Apply_middleware_order (g e : list string) (a : string)
    (name dst : stringer) (d : testData) (ex : world) :
  match
    Workflow_Add
      (<[1%positive := {| tr_Src := []; tr_Dst := dst;
                          tr_Middleware := Success a |}]> ∅)
      (NewWorkflow setState (map Success g)) name (Some 1%positive)
      (map Success e)
  with
  | Val (h, w, None) =>
      Workflow_Apply h w () (Some d) name ex =
      (Val (Some {| state := dst |}, None), ex ++ g ++ e ++ [a])
  | _ => False
  end.
Proof.
  unfold Workflow_Add. cbn [NewWorkflow w_transitions w_apply w_mw].
  rewrite lookup_empty.
  destruct (decide (is_Some (@None ptr))) as [[? ?]|_]; [discriminate|].
  rewrite lookup_insert_eq. cbn [tr_Middleware tr_Src tr_Dst Success].
  erewrite Workflow_Apply_registered;
    [| cbn [w_transitions]; apply lookup_insert_eq
     | unfold deref; apply lookup_insert_eq].
  cbn [w_mw w_apply tr_Middleware tr_Src tr_Dst].
  rewrite chainProcess_Success.
  change (call (chainProcess (map Success e ++ [Success a])) () (Some d)
            (fun c' d' => setState c' d' dst) (ex ++ g) =
          (Val (Some {| state := dst |}, None), ex ++ g ++ e ++ [a])).
  change [Success a] with (map Success [a]). rewrite <- map_app.
  rewrite chainProcess_Success. cbn. rewrite <- !app_assoc. reflexivity.
Qed.

Lemma chainFrom_Success_app (names : list string) (rest : list TMiddleware)
    (next : TProcess) (data d : TData) (c : ()) (ex : world) :
  chainFrom (map Success names ++ rest) next data c d ex =
  chainFrom rest next data c d (ex ++ names).
Proof.
  revert ex. induction names as [|n names IH]; intros ex; cbn.
  - rewrite app_nil_r. reflexivity.
  - rewrite IH, <- app_assoc. reflexivity.
Qed.

(** X16. A middleware that returns without calling its continuation stops
    the chain where it stands.  Put [deny] after recording middleware with
    any names [pre] and before any middleware [post]: the composed call
    records exactly [pre], returns the data and the error of [deny], and
    neither [post] nor the terminal function has any part in it. *)
Theorem chainProcess_stops_at_deny (pre : list string)
    (post : list TMiddleware) (data : TData) (next : TProcess) (ex : world) :
  call (chainProcess (map Success pre ++ deny :: post)) () data next ex =
  (Val (data, Some (ErrUser "denied")), ex ++ pre).
Proof.
  destruct pre as [|n pre].
  - cbn [map app]. rewrite app_nil_r.
    rewrite (chainProcess_head_cut deny post denied () data next
               (fun c d k => eq_refl)).
    reflexivity.
  - change (map Success (n :: pre) ++ deny :: post)
      with (Success n :: (map Success pre ++ deny :: post)).
    rewrite (chainProcess_cons_nonempty (Success n)
               (map Success pre ++ deny :: post)
               ltac:(destruct pre; discriminate)
             : chainProcess (Success n :: (map Success pre ++ deny :: post)) = _).
    cbn [call Success].
    rewrite chainFrom_Success_app, <- app_assoc. reflexivity.
Qed.

(** ** Instances of the hypotheses above *)

(** X1 (witness). *)
Lemma chainProcess_is_nest_witness :
  Forall no_panic_mw [passThrough; deny] /\
  no_panic echo /\
  length [passThrough; deny] <> 1 /\
  call (chainProcess [passThrough; deny]) () newData echo =
  chainFrom [passThrough; deny] echo newData () newData.
Proof.
  assert (Forall no_panic_mw [passThrough; deny]) as Hall.
  { repeat constructor.
    - intros k Hk c d s. apply Hk.
    - intros k _ c d s. discriminate. }
  assert (no_panic echo) as Hecho by (intros c d s; discriminate).
  assert (length [passThrough; deny] <> 1) as Hlen by discriminate.
  split; [exact Hall|]. split; [exact Hecho|]. split; [exact Hlen|].
  exact (proj1 (chainProcess_is_nest [passThrough; deny] () newData echo
                  Hall Hecho Hlen)).
Defined.

(** X2 (witness): [echo] and a terminal function that returns the entity
    in state ["new"] whatever it receives. *)
Lemma chainProcess_terminal_on_call_data_witness :
  2 <= length [passThrough; withState doneState] /\
  (forall c : (), echo c newData = ret (newData, None)) /\
  call (chainProcess [passThrough; withState doneState]) () newData echo =
  call (chainProcess [passThrough; withState doneState]) () newData
    (fun _ _ => ret (newData, None)).
Proof.
  assert (2 <= length [passThrough; withState doneState]) as Hlen
      by (cbn; lia).
  split; [exact Hlen|]. split; [reflexivity|].
  exact (chainProcess_terminal_on_call_data
           [passThrough; withState doneState] () newData echo
           (fun _ _ => ret (newData, None)) Hlen (fun c => eq_refl)).
Defined.

(** X3 (witness). *)
Lemma chainProcess_transparent_witness :
  Forall (fun m : TMiddleware => forall c d k, call m c d k = k c d)
    [passThrough; passThrough; passThrough] /\
  call (chainProcess [passThrough; passThrough; passThrough]) () newData echo =
  echo () newData.
Proof.
  assert (Forall (fun m : TMiddleware => forall c d k, call m c d k = k c d)
            [passThrough; passThrough; passThrough]) as Hall
      by (repeat constructor).
  split; [exact Hall|].
  exact (proj1 (chainProcess_transparent _ _ Hall Hall) () newData echo).
Defined.

(** X12 (witness): [toDone], registered with a transition from ["new"]. *)
Lemma nil_data_panics_witness :
  w_transitions guardedWorkflow !! toDone = Some (Some 2%positive) /\
  deref scenarioHeap (Some 2%positive) = Some guardedTransition /\
  tr_Src guardedTransition <> [] /\
  Workflow_Can scenarioHeap guardedWorkflow None toDone [] = (Panic, []).
Proof.
  assert (w_transitions guardedWorkflow !! toDone = Some (Some 2%positive))
    as Hp by (vm_compute; reflexivity).
  assert (deref scenarioHeap (Some 2%positive) = Some guardedTransition)
    as Ht by (vm_compute; reflexivity).
  assert (tr_Src guardedTransition <> []) as Hsrc by discriminate.
  split; [exact Hp|]. split; [exact Ht|]. split; [exact Hsrc|].
  exact (proj2 (proj2 (nil_data_panics scenarioHeap guardedWorkflow toDone _ _
                         [] Hp Ht Hsrc))).
Defined.

(** X13 (witness): the same two source states, in another order and with a
    repetition. *)
Lemma Transition_Can_same_sources_witness :
  (forall x, x ∈ [newState; doneState] <-> x ∈ [doneState; newState; doneState]) /\
  Transition_Can
    ({| tr_Src := [newState; doneState]; tr_Dst := cancelState;
        tr_Middleware := None |} : TTransition) newData =
  Transition_Can
    ({| tr_Src := [doneState; newState; doneState]; tr_Dst := newState;
        tr_Middleware := deny |} : TTransition) newData.
Proof.
  assert (forall x : stringer,
             x ∈ [newState; doneState] <-> x ∈ [doneState; newState; doneState])
    as Hsame.
  { intros x. rewrite !elem_of_cons, !elem_of_nil. tauto. }
  split; [exact Hsame|].
  exact (Transition_Can_same_sources
           ({| tr_Src := [newState; doneState]; tr_Dst := cancelState;
               tr_Middleware := None |} : TTransition)
           ({| tr_Src := [doneState; newState; doneState]; tr_Dst := newState;
               tr_Middleware := deny |} : TTransition) newData Hsame).
Defined.

(** X6 (witness): the first registration of [TestWorkflow_Add]. *)
Lemma Workflow_Add_keeps_witness :
  match addFirst with
  | Val (h', w', e) =>
      (forall l t, addHeap !! l = Some t ->
         exists t', h' !! l = Some t' /\
           tr_Src t' = tr_Src t /\ tr_Dst t' = tr_Dst t) /\
      w_mw w' = chainProcess []
  | Panic => False
  end.
Proof.
  destruct addFirst as [[[h' w'] e]|] eqn:Hadd; [|discriminate Hadd].
  destruct (Workflow_Add_keeps _ _ _ _ _ _ _ _ Hadd)
    as (_ & Hheap & _ & _ & Hmw).
  split; [exact Hheap | exact Hmw].
Defined.

(** X7 (witness): [toDone] before and after [toNew] is registered. *)
Lemma Workflow_Add_other_names_witness :
  match addFirst with
  | Val (h', w', e) =>
      toDone <> toNew /\
      Workflow_Can h' w' newData toDone =
      Workflow_Can addHeap (NewWorkflow keepData []) newData toDone
  | Panic => False
  end.
Proof.
  destruct addFirst as [[[h' w'] e]|] eqn:Hadd; [|discriminate Hadd].
  assert (toDone <> toNew) as Hne by discriminate.
  split; [exact Hne|].
  exact (proj2 (Workflow_Add_other_names _ _ _ _ _ _ _ _ toDone newData
                  Hadd Hne)).
Defined.

(** X8 (witness): [toNew] after it is registered. *)
Lemma Workflow_Add_then_Can_witness :
  match addFirst with
  | Val (h', w', None) =>
      deref addHeap (Some 1%positive) = Some plainTransition /\
      Workflow_Can h' w' newData toNew [] =
      Transition_Can plainTransition newData []
  | _ => False
  end.
Proof.
  destruct addFirst as [[[h' w'] [e|]]|] eqn:Hadd;
    [discriminate Hadd| |discriminate Hadd].
  assert (deref addHeap (Some 1%positive) = Some plainTransition) as Ht
      by (vm_compute; reflexivity).
  split; [exact Ht|].
  exact (proj1 (Workflow_Add_then_Can _ _ _ _ _ _ _ _ newData [] Hadd Ht)).
Defined.

(** X9 (witness): the first struct of [addHeap] registered as [toNew] and
    then as [toDone]. *)
Lemma Workflow_Add_shared_pointer_witness :
  match addFirst with
  | Val (h1, w1, None) =>
      match Workflow_Add h1 w1 toDone (Some 1%positive) [deny] with
      | Val (h2, w2, None) =>
          toNew <> toDone /\
          forall ctx data,
            Workflow_Apply h2 w2 ctx data toNew =
            Workflow_Apply h2 w2 ctx data toDone
      | _ => False
      end
  | _ => False
  end.
Proof.
  destruct addFirst as [[[h1 w1] [e|]]|] eqn:Hadd1;
    [discriminate Hadd1| |discriminate Hadd1].
  destruct (Workflow_Add h1 w1 toDone (Some 1%positive) [deny])
    as [[[h2 w2] [e|]]|] eqn:Hadd2.
  - revert Hadd2. unfold addFirst in Hadd1. injection Hadd1 as <- <-.
    vm_compute. discriminate.
  - destruct (Workflow_Add_shared_pointer _ _ _ _ _ _ _ _ _ _ _ Hadd1 Hadd2)
      as (Hne & _ & _ & _ & Happly).
    split; [exact Hne | exact Happly].
  - revert Hadd2. unfold addFirst in Hadd1. injection Hadd1 as <- <-.
    vm_compute. discriminate.
Defined.

(** X10 (witness): [toDone] on an entity in state ["new"]. *)
Lemma Workflow_Apply_guard_witness :
  w_mw guardedWorkflow = chainProcess [] /\
  w_transitions guardedWorkflow !! toDone = Some (Some 2%positive) /\
  deref scenarioHeap (Some 2%positive) = Some guardedTransition /\
  Workflow_Apply scenarioHeap guardedWorkflow () newData toDone [] =
  call (Success "done") () newData (fun c d => setState c d doneState) [].
Proof.
  assert (w_transitions guardedWorkflow !! toDone = Some (Some 2%positive))
    as Hp by (vm_compute; reflexivity).
  assert (deref scenarioHeap (Some 2%positive) = Some guardedTransition)
    as Ht by (vm_compute; reflexivity).
  split; [reflexivity|]. split; [exact Hp|]. split; [exact Ht|].
  exact (Workflow_Apply_guard scenarioHeap guardedWorkflow toDone _ _ ()
           newData [] eq_refl Hp Ht).
Defined.

(** X11 (witness): [toNew] of [TestWorkflow_Add], applied after it is
    registered. *)
Lemma Workflow_Add_then_Apply_witness :
  match addFirst with
  | Val (h', w', None) =>
      Workflow_Apply h' w' () newData toNew [] = keepData () newData newState []
  | _ => False
  end.
Proof.
  destruct addFirst as [[[h' w'] [e|]]|] eqn:Hadd;
    [discriminate Hadd| |discriminate Hadd].
  assert (deref addHeap (Some 1%positive) = Some plainTransition) as Ht
      by (vm_compute; reflexivity).
  exact (Workflow_Add_then_Apply addHeap (NewWorkflow keepData []) toNew
           (Some 1%positive) h' w' plainTransition () newData []
           eq_refl Ht eq_refl Hadd eq_refl).
Defined.

(** X14 (witness): a transition whose middleware is [deny]. *)
Lemma Workflow_Apply_blocked_witness :
  (forall c d k, call (tr_Middleware denyTransition) c d k = denied c d) /\
  Workflow_Apply denyHeap
    {| w_transitions := w_transitions denyWorkflow; w_apply := keepData;
       w_mw := w_mw denyWorkflow |} () newData toNew =
  Workflow_Apply denyHeap denyWorkflow () newData toNew.
Proof.
  assert (w_transitions denyWorkflow !! toNew = Some (Some 1%positive))
    as Hp by (vm_compute; reflexivity).
  assert (deref denyHeap (Some 1%positive) = Some denyTransition)
    as Ht by (vm_compute; reflexivity).
  split; [reflexivity|].
  exact (Workflow_Apply_blocked denyHeap denyWorkflow toNew _ _ denied keepData
           () newData Hp Ht (fun c d k => eq_refl)).
Defined.
